(** * pdf2yaml: a shallow embedding of [pdf2yaml.py]

    The program is a command-line driver: it validates the input path,
    derives the output path, calls the external PDF-to-Markdown engine,
    optionally wraps the Markdown in a fixed YAML scaffold, prints status
    messages and writes one file.

    Modelling choices.
    - Python text is a [string] (a sequence of bytes, UTF-8 text);
      [str.lower] acts on the ASCII letters, which is all the comparison
      with '.pdf' can observe.
    - [pathlib.Path] is the POSIX flavour: a root and a list of components.
    - A progress percentage is an IEEE-754 binary64 number, as in Python.
    - Effects (standard output, the engine call, opening and writing a file,
      [sys.exit], exceptions) are threaded through a small state-and-error
      monad; every effect is also logged in a trace, in program order.
      Standard output accepts every text: [print] does not fail.
    - [argparse] is not modelled: [main] receives the parsed namespace.
    - A text file holds the text written to it (POSIX: no newline
      translation), so file contents are compared as texts.
    - The file map is keyed by the path text handed to the system: two
      texts for one file (links, [..] components) are not represented, so
      statements about files speak of the path that was opened. *)

From Stdlib Require Import ZArith List Ascii String.
From Stdlib Require Import Floats.PrimFloat Floats.SpecFloat Floats.FloatOps.
From stdpp Require Import base option list gmap strings pretty.

Open Scope string_scope.
Open Scope list_scope.
Open Scope Z_scope.
Open Scope stdpp_scope.

(** ** Text helpers *)

Module Text.

Definition nl : string := String (ascii_of_nat 10) EmptyString.
Definition cr : string := String (ascii_of_nat 13) EmptyString.
Definition dq : string := String (ascii_of_nat 34) EmptyString.

(** [str.lower] on one byte: only 'A'..'Z' change. *)
Definition lower_ascii (c : ascii) : ascii :=
  let n := nat_of_ascii c in
  if (Nat.leb 65 n && Nat.leb n 90)%bool then ascii_of_nat (n + 32) else c.

Fixpoint lower (s : string) : string :=
  match s with
  | EmptyString => EmptyString
  | String c r => String (lower_ascii c) (lower r)
  end.

(** [sep.join(l)] *)
Fixpoint join (sep : string) (l : list string) : string :=
  match l with
  | [] => EmptyString
  | [x] => x
  | x :: r => x +:+ sep +:+ join sep r
  end.

(** [s.split(c)] for a one-character separator: never empty. *)
Fixpoint split (c : ascii) (s : string) : list string :=
  match s with
  | EmptyString => [EmptyString]
  | String a r =>
      if Ascii.eqb a c then EmptyString :: split c r
      else match split c r with
           | h :: t => String a h :: t
           | [] => [String a EmptyString]
           end
  end.

(** [c in s] *)
Fixpoint contains (c : ascii) (s : string) : bool :=
  match s with
  | EmptyString => false
  | String a r => Ascii.eqb a c || contains c r
  end.

(** [s.rfind(c)] for one character, [None] standing for -1. *)
Fixpoint rfind (c : ascii) (s : string) : option nat :=
  match s with
  | EmptyString => None
  | String a r =>
      match rfind c r with
      | Some i => Some (S i)
      | None => if Ascii.eqb a c then Some 0%nat else None
      end
  end.

(** [s[i:]] and [s[:i]] for [0 <= i]. *)
Fixpoint drop (i : nat) (s : string) : string :=
  match i, s with
  | O, _ => s
  | S _, EmptyString => EmptyString
  | S j, String _ r => drop j r
  end.

Fixpoint take (i : nat) (s : string) : string :=
  match i, s with
  | O, _ => EmptyString
  | S _, EmptyString => EmptyString
  | S j, String a r => String a (take j r)
  end.

(** Each line followed by a newline, as in a triple-quoted literal. *)
Definition unlines (l : list string) : string :=
  fold_right (fun x acc => x +:+ nl +:+ acc) EmptyString l.

End Text.

(** ** Exceptions and results *)

(** The outcome of a Python computation: a value, a raised [Exception]
    carrying [str(e)], or [SystemExit] with its code. *)
Inductive res (A : Type) : Type :=
| Ok (a : A)
| Raise (msg : string)
| SysExit (code : Z).
Arguments Ok {A} a.
Arguments Raise {A} msg.
Arguments SysExit {A} code.

(** ** [str.format] with automatically numbered fields *)

Module Format.

Definition lbrace : ascii := ascii_of_nat 123.
Definition rbrace : ascii := ascii_of_nat 125.

Definition prepend (p : string) (r : res string) : res string :=
  match r with
  | Ok s => Ok (p +:+ s)
  | Raise m => Raise m
  | SysExit c => SysExit c
  end.

(** Doubled braces are literal braces, an empty pair of braces is the next
    positional argument; named or indexed fields, which the program does
    not use, are reported as errors, as are unbalanced braces. *)
Fixpoint format (t : string) (args : list string) : res string :=
  match t with
  | EmptyString => Ok EmptyString
  | String a r =>
      if Ascii.eqb a lbrace then
        match r with
        | String b r' =>
            if Ascii.eqb b lbrace then prepend (String lbrace EmptyString) (format r' args)
            else if Ascii.eqb b rbrace then
              match args with
              | x :: args' => prepend x (format r' args')
              | [] => Raise "Replacement index out of range for positional args tuple"
              end
            else Raise "unsupported replacement field"
        | EmptyString => Raise "Single '{' encountered in format string"
        end
      else if Ascii.eqb a rbrace then
        match r with
        | String b r' =>
            if Ascii.eqb b rbrace then prepend (String rbrace EmptyString) (format r' args)
            else Raise "Single '}' encountered in format string"
        | EmptyString => Raise "Single '}' encountered in format string"
        end
      else prepend (String a EmptyString) (format r args)
  end.

End Format.

(** ** [pathlib.PurePosixPath] *)

Module Path.

Record t := mk { root : string; parts : list string }.

Definition slash : ascii := ascii_of_nat 47.
Definition dot : ascii := ascii_of_nat 46.

(** [posixpath.splitroot]: no leading slash, exactly two, or one (three or
    more collapse to one). *)
Definition splitroot (p : string) : string * string :=
  match p with
  | String a r =>
      if Ascii.eqb a slash then
        match r with
        | String b r' =>
            if Ascii.eqb b slash then
              match r' with
              | String c _ =>
                  if Ascii.eqb c slash then ("/", r) else ("//", r')
              | EmptyString => ("//", r')
              end
            else ("/", r)
        | EmptyString => ("/", r)
        end
      else (EmptyString, p)
  | EmptyString => (EmptyString, p)
  end.

Definition keep_part (x : string) : bool :=
  negb (String.eqb x EmptyString) && negb (String.eqb x ".").

(** [Path(s)] *)
Definition of_string (s : string) : t :=
  let '(rt, rel) := splitroot s in
  mk rt (List.filter keep_part (Text.split slash rel)).

(** [str(p)] *)
Definition to_string (p : t) : string :=
  match root p, parts p with
  | EmptyString, [] => "."
  | rt, ps => rt +:+ Text.join "/" ps
  end.

(** [p.name] *)
Definition name (p : t) : string := List.last (parts p) EmptyString.

(** [p.suffix]: from the last dot of the name, unless that dot is the
    first or the last character. *)
Definition suffix (p : t) : string :=
  let n := name p in
  match Text.rfind dot n with
  | Some i =>
      if (Nat.ltb 0 i && Nat.ltb i (String.length n - 1))%bool
      then Text.drop i n else EmptyString
  | None => EmptyString
  end.

(** [p.with_suffix(suffix)]; [ValueError] is a [Raise]. *)
Definition with_suffix (p : t) (sfx : string) : res t :=
  if Text.contains slash sfx then Raise "Invalid suffix"
  else if (negb (String.eqb sfx EmptyString) && negb (String.prefix "." sfx)
           || String.eqb sfx ".")%bool then Raise "Invalid suffix"
  else
    let n := name p in
    if String.eqb n EmptyString then Raise "path has an empty name"
    else
      let old := suffix p in
      let n' := if String.eqb old EmptyString then n +:+ sfx
                else Text.take (String.length n - String.length old) n +:+ sfx in
      Ok (mk (root p) (removelast (parts p) ++ [n'])).

End Path.

(** ** Formatting numbers *)

Module Num.

(** Round [m * 2^e] (with [m >= 0]) to the nearest integer, ties to even. *)
Definition round_half_even (m e : Z) : Z :=
  if 0 <=? e then m * 2 ^ e
  else
    let d := 2 ^ (- e) in
    let q := m / d in
    let r := m mod d in
    if (d <? 2 * r) || ((2 * r =? d) && Z.odd q) then q + 1 else q.

Definition sign_text (s : bool) : string := if s then "-" else EmptyString.

(** The format specification [.1f] applied to a binary64 number: the
    exact value correctly rounded to one decimal. *)
Definition format_1f (x : float) : string :=
  match Prim2SF x with
  | S754_nan => "nan"
  | S754_infinity s => sign_text s +:+ "inf"
  | S754_zero s => sign_text s +:+ "0.0"
  | S754_finite s m e =>
      let n := round_half_even (Z.pos m * 10) e in
      sign_text s +:+ pretty (n / 10) +:+ "." +:+ pretty (n mod 10)
  end.

(** [x >= 100] on floats (false on nan). *)
Definition ge_100 (x : float) : bool := PrimFloat.leb 100%float x.

End Num.

(** ** The world: file system, engine, and the log of effects *)

(** What the external engine reports to the progress hook. *)
Record Progress := mkProgress {
  phase : string;          (* progress.phase.value *)
  current_page : Z;
  total_pages : Z;
  percentage : float
}.

(** Observable effects, in the order the program performs them. *)
Inductive event : Type :=
| Stdout (text : string)
| Convert (path : string) (remove_headers skip_empty_tables : bool)
          (table_header : string)
| OpenW (path : string)
| WriteF (path : string) (content : string).

(** The parts of the environment the program cannot see into.
    - [engine path remove_headers skip_empty_tables table_header]: the
      progress events the converter reports, then what [convert] returns
      or raises;
    - [open_error path]: [str(e)] when opening [path] for writing fails;
    - [write_error path content]: [str(e)] when writing fails, with the
      number of characters that reached the file. *)
Record Env := mkEnv {
  engine : string -> bool -> bool -> string -> list Progress * res string;
  open_error : string -> option string;
  write_error : string -> string -> option (string * nat)
}.

Record World := mkWorld {
  files : gmap string string;   (* regular files and their text *)
  dirs : gset string;           (* directories *)
  stat_errors : gmap string string;
      (* paths the system refuses to examine (name too long, no permission
         on a parent directory), with the text of the OSError *)
  trace : list event
}.

Definition log (e : event) (w : World) : World :=
  mkWorld (files w) (dirs w) (stat_errors w) (trace w ++ [e]).

Definition set_file (p content : string) (w : World) : World :=
  mkWorld (<[p := content]> (files w)) (dirs w) (stat_errors w) (trace w).

(** Everything written to standard output, concatenated. *)
Fixpoint stdout_of (t : list event) : string :=
  match t with
  | [] => EmptyString
  | Stdout s :: r => s +:+ stdout_of r
  | _ :: r => stdout_of r
  end.

(** ** The monad of Python computations *)

Definition M (A : Type) : Type := World -> res A * World.

Definition ret {A} (a : A) : M A := fun w => (Ok a, w).

Definition bind {A B} (m : M A) (k : A -> M B) : M B :=
  fun w =>
    match m w with
    | (Ok a, w') => k a w'
    | (Raise msg, w') => (Raise msg, w')
    | (SysExit c, w') => (SysExit c, w')
    end.

Notation "'do' x <- m ; k" := (bind m (fun x => k))
  (at level 10, x name, m at level 100, k at level 200).
Notation "'run' m ; k" := (bind m (fun _ => k))
  (at level 10, m at level 100, k at level 200).

(** A pure computation that may raise. *)
Definition lift {A} (r : res A) : M A := fun w => (r, w).

(** [sys.exit(code)] *)
Definition sys_exit {A} (code : Z) : M A := fun w => (SysExit code, w).

(** [try: body / except Exception as e: handler(e)]; [SystemExit] is not an
    [Exception] and passes through. *)
Definition try_except {A} (body : M A) (handler : string -> M A) : M A :=
  fun w =>
    match body w with
    | (Raise msg, w') => handler msg w'
    | r => r
    end.

(** [print(s, end=e)] and [print(s)] *)
Definition print_end (s e : string) : M unit :=
  fun w => (Ok tt, log (Stdout (s +:+ e)) w).

Definition print (s : string) : M unit := print_end s Text.nl.

(** [Path.exists()]. The path is examined first; an OSError other than
    the not-found kinds is raised to the caller, and otherwise the answer is
    whether the path names a regular file or a directory. [exists_in] is
    whether the call answers [True]: it is false both when the call answers
    [False] and when it raises. *)
Definition exists_in (w : World) (p : Path.t) : bool :=
  let k := Path.to_string p in
  bool_decide (stat_errors w !! k = None) &&
  (bool_decide (is_Some (files w !! k)) || bool_decide (k ∈ dirs w)).

Definition path_exists (p : Path.t) : M bool :=
  fun w =>
    match stat_errors w !! Path.to_string p with
    | Some msg => (Raise msg, w)
    | None => (Ok (exists_in w p), w)
    end.

(** [with open(path, 'w', encoding='utf-8') as f: f.write(content)] *)
Definition write_text (env : Env) (path content : string) : M unit :=
  fun w =>
    let w1 := log (OpenW path) w in
    match open_error env path with
    | Some msg => (Raise msg, w1)
    | None =>
        let w2 := log (WriteF path content) (set_file path EmptyString w1) in
        match write_error env path content with
        | Some (msg, n) => (Raise msg, set_file path (Text.take n content) w2)
        | None => (Ok tt, set_file path content w2)
        end
    end.

(** ** The program *)

(** [progress_callback(progress)] *)
Definition progress_line (p : Progress) : string :=
  Text.cr +:+ "Phase: " +:+ phase p +:+ ", Page " +:+ pretty (current_page p)
  +:+ "/" +:+ pretty (total_pages p) +:+ ", Progress: "
  +:+ Num.format_1f (percentage p) +:+ "%".

Definition progress_callback (p : Progress) : M unit :=
  run print_end (progress_line p) EmptyString;
  if Num.ge_100 (percentage p) then print EmptyString else ret tt.

(** The engine's [convert]: it calls the hook once per progress event, in
    order, and then returns or raises. *)
Fixpoint report (cb : Progress -> M unit) (evs : list Progress) : M unit :=
  match evs with
  | [] => ret tt
  | p :: r => run cb p; report cb r
  end.

Definition convert (env : Env) (remove_headers skip_empty_tables : bool)
    (table_header : string) (cb : Progress -> M unit) (path : string) : M string :=
  fun w =>
    let '(evs, r) := engine env path remove_headers skip_empty_tables table_header in
    bind (report cb evs) (fun _ => lift r)
         (log (Convert path remove_headers skip_empty_tables table_header) w).

(** [pdf_to_markdown(pdf_path, remove_headers, skip_empty_tables)] *)
Definition pdf_to_markdown (env : Env) (pdf_path : Path.t)
    (remove_headers skip_empty_tables : bool) : M string :=
  let converter := convert env remove_headers skip_empty_tables "### Table"
                           progress_callback in
  run print ("Converting " +:+ Path.to_string pdf_path +:+ " to Markdown...");
  do markdown_content <- converter (Path.to_string pdf_path);
  ret markdown_content.

(** The template literal of [markdown_to_yaml_template], line by line; [q]
    stands for the double-quote character. The lines before the replacement
    field are the scaffold. *)
Definition scaffold_lines : list string :=
  let q := Text.dq in
  [
    "# YAML PRD - Generated from PDF";
    "# Review and edit this template to match your needs";
    "";
    "prd:";
    "  title: " +:+ q +:+ "TODO: Extract title from document" +:+ q;
    "  purpose: " +:+ q +:+ "TODO: Extract purpose/objective from document" +:+ q;
    "  ";
    "  features:";
    "    # TODO: Extract user stories/features from the markdown content";
    "    - id: F1";
    "      user_story: " +:+ q +:+ "As a [user], I can [action] so that [benefit]" +:+ q;
    "    - id: F2";
    "      user_story: " +:+ q +:+ "..." +:+ q;
    "  ";
    "  metrics:";
    "    # TODO: Extract success metrics/KPIs";
    "    - metric: Metric_Name";
    "      target: " +:+ q +:+ "Target value" +:+ q;
    "  ";
    "  constraints:";
    "    # TODO: Extract constraints, limitations, and requirements";
    "    - " +:+ q +:+ "Constraint 1" +:+ q;
    "    - " +:+ q +:+ "Constraint 2" +:+ q;
    "";
    "# Optional sections (uncomment as needed):";
    "# technical_specs:";
    "#   api:";
    "#     - endpoint: /api/v1/resource";
    "#       method: POST";
    "#   database:";
    "#     table_name:";
    "#       column: type";
    "# ";
    "# dependencies:";
    "#   - name: service_name";
    "#     version: " +:+ q +:+ ">=1.0" +:+ q;
    "# ";
    "# testing:";
    "#   coverage: 80";
    "#   scenarios:";
    "#     - name: scenario_name";
    "";
    "# === Original Markdown Content ===";
    "# Use this content to fill in the YAML structure above";
    "---"
  ].

Definition yaml_template : string :=
  Text.unlines (scaffold_lines ++ ["{}"]).

(** [markdown_to_yaml_template(markdown_content)] *)
Definition markdown_to_yaml_template (markdown_content : string) : res string :=
  Format.format yaml_template [markdown_content].

(** The namespace returned by [parser.parse_args()]. *)
Record Args := mkArgs {
  pdf_file : string;
  output : option string;          (* -o / --output; [None] when absent *)
  markdown_only : bool;            (* -m / --markdown-only *)
  keep_headers : bool;             (* --keep-headers *)
  include_empty_tables : bool      (* --include-empty-tables *)
}.

(** Truth value of [args.output]: absent and empty are both false. *)
Definition truthy (o : option string) : bool :=
  match o with
  | Some s => negb (String.eqb s EmptyString)
  | None => false
  end.

(** The block under [# Determine output file]. *)
Definition determine_output (args : Args) (pdf_path : Path.t) : res Path.t :=
  if truthy (output args) then
    Ok (Path.of_string (default EmptyString (output args)))
  else
    let suffix := if markdown_only args then ".md" else ".yaml" in
    Path.with_suffix pdf_path suffix.

Definition not_found_message (pdf_path : Path.t) : string :=
  "Error: File '" +:+ Path.to_string pdf_path +:+ "' not found".

Definition not_pdf_message (pdf_path : Path.t) : string :=
  "Error: File '" +:+ Path.to_string pdf_path +:+ "' is not a PDF".

Definition saved_markdown_message (output_path : Path.t) : string :=
  Text.nl +:+ "Markdown saved to: " +:+ Path.to_string output_path.

Definition saved_yaml_message (output_path : Path.t) : string :=
  Text.nl +:+ "YAML PRD template saved to: " +:+ Path.to_string output_path.

Definition error_message (e : string) : string :=
  Text.nl +:+ "Error converting PDF: " +:+ e.

(** The four numbered lines after the [Next steps:] heading. *)
Definition next_steps : list string := [
  "1. Open the YAML file and review the generated template";
  "2. Extract relevant information from the markdown section";
  "3. Fill in the TODO sections with actual content";
  "4. Remove the markdown section once extraction is complete"
].

Fixpoint print_all (l : list string) : M unit :=
  match l with
  | [] => ret tt
  | s :: r => run print s; print_all r
  end.

(** The body of the [try] block. *)
Definition convert_and_save (env : Env) (args : Args)
    (pdf_path output_path : Path.t) : M unit :=
  do markdown_content <-
    pdf_to_markdown env pdf_path
      (negb (keep_headers args)) (negb (include_empty_tables args));
  do output_content <-
    (if markdown_only args then
       run print (saved_markdown_message output_path);
       ret markdown_content
     else
       do output_content <- lift (markdown_to_yaml_template markdown_content);
       run print (saved_yaml_message output_path);
       run print (Text.nl +:+ "Next steps:");
       run print_all next_steps;
       ret output_content);
  write_text env (Path.to_string output_path) output_content.

(** The [except] clause of [main]. *)
Definition handler (e : string) : M unit :=
  run print (error_message e); sys_exit 1.

(** [main()], after argument parsing. *)
Definition main (env : Env) (args : Args) : M unit :=
  let pdf_path := Path.of_string (pdf_file args) in
  do found <- path_exists pdf_path;
  if negb found then
    run print (not_found_message pdf_path);
    sys_exit 1
  else if negb (String.eqb (Text.lower (Path.suffix pdf_path)) ".pdf") then
    run print (not_pdf_message pdf_path);
    sys_exit 1
  else
    do output_path <- lift (determine_output args pdf_path);
    try_except (convert_and_save env args pdf_path output_path) handler.

(** The process exit status of a finished run: 0 on normal return, the
    [SystemExit] code, and 1 for an uncaught exception. *)
Definition exit_code {A} (r : res A) : Z :=
  match r with
  | Ok _ => 0
  | SysExit c => c
  | Raise _ => 1
  end.

(** Whether [needle] occurs in [s] ([needle in s]) and whether [s] ends with
    [sfx] ([s.endswith(sfx)]); used to state what a text contains. *)
Fixpoint occurs (needle s : string) : bool :=
  String.prefix needle s ||
  match s with
  | EmptyString => false
  | String _ r => occurs needle r
  end.

Definition endswith (s sfx : string) : bool :=
  Nat.leb (String.length sfx) (String.length s) &&
  String.eqb (Text.drop (String.length s - String.length sfx) s) sfx.

(** The world after further events. *)
Definition emit (es : list event) (w : World) : World :=
  mkWorld (files w) (dirs w) (stat_errors w) (trace w ++ es).

(** What one call of the progress hook writes. *)
Definition callback_events (p : Progress) : list event :=
  Stdout (progress_line p) ::
  (if Num.ge_100 (percentage p) then [Stdout Text.nl] else []).

Definition progress_events (evs : list Progress) : list event :=
  concat (map callback_events evs).

(** The number of bare newline writes in a trace. *)
Definition is_newline (e : event) : bool :=
  match e with Stdout s => String.eqb s Text.nl | _ => false end.

Definition newlines (t : list event) : nat :=
  length (List.filter is_newline t).

Definition is_convert (e : event) : bool :=
  match e with Convert _ _ _ _ => true | _ => false end.

Definition is_file_event (e : event) : bool :=
  match e with OpenW _ | WriteF _ _ => true | _ => false end.

(** The text before the last component of a joined path. *)
Definition lead (l : list string) : string :=
  match l with
  | [] => EmptyString
  | _ => Text.join "/" l +:+ "/"
  end.

(** The scaffold as one text: every template line before the field. *)
Definition scaffold : string := Text.unlines scaffold_lines.

(** One [print] per line. *)
Definition printed (l : list string) : list event :=
  map (fun s => Stdout (s +:+ Text.nl)) l.

(** What [pdf_to_markdown] does before it returns or raises. *)
Definition conversion_events (pdf_path : Path.t)
    (remove_headers skip_empty_tables : bool) (evs : list Progress) : list event :=
  Stdout ("Converting " +:+ Path.to_string pdf_path +:+ " to Markdown..." +:+ Text.nl)
  :: Convert (Path.to_string pdf_path) remove_headers skip_empty_tables "### Table"
  :: progress_events evs.

(** The confirmation printed once the output text is ready. *)
Definition saved_events (args : Args) (output_path : Path.t) : list event :=
  if markdown_only args then printed [saved_markdown_message output_path]
  else printed (saved_yaml_message output_path
                :: (Text.nl +:+ "Next steps:") :: next_steps).

(** The text handed to the file write. *)
Definition output_content (args : Args) (markdown_content : string) : string :=
  if markdown_only args then markdown_content
  else scaffold +:+ markdown_content +:+ Text.nl.

(** The engine call [main] makes for [args]. *)
Definition engine_call (env : Env) (args : Args) : list Progress * res string :=
  engine env (Path.to_string (Path.of_string (pdf_file args)))
         (negb (keep_headers args)) (negb (include_empty_tables args)) "### Table".

(** The input path of a run, and whether it passes both validation steps. *)
Definition input_path (args : Args) : Path.t := Path.of_string (pdf_file args).

Definition is_pdf (p : Path.t) : bool :=
  String.eqb (Text.lower (Path.suffix p)) ".pdf".

(** ** Sample runs

    A working engine for a two-page document, an engine that fails, and file
    systems that accept or refuse the write. *)

Definition two_pages : list Progress :=
  [ mkProgress "analysis" 1 2 50%float; mkProgress "conversion" 2 2 100%float ].

Definition good_env : Env :=
  mkEnv (fun _ _ _ _ => (two_pages, Ok "# T"))
        (fun _ => None) (fun _ _ => None).

Definition broken_engine_env : Env :=
  mkEnv (fun _ _ _ _ => ([], Raise "not a PDF document"))
        (fun _ => None) (fun _ _ => None).

Definition read_only_env : Env :=
  mkEnv (fun _ _ _ _ => (two_pages, Ok "# T"))
        (fun p => Some ("[Errno 13] Permission denied: '" +:+ p +:+ "'"))
        (fun _ _ => None).

Definition disk_full_env : Env :=
  mkEnv (fun _ _ _ _ => (two_pages, Ok "# T"))
        (fun _ => None)
        (fun _ _ => Some ("[Errno 28] No space left on device", 0%nat)).

Definition sample_world : World :=
  mkWorld {[ "spec.pdf" := "%PDF-1.7"; "notes.txt" := "hello" ]} ∅ ∅ [].

Definition sample_args : Args := mkArgs "spec.pdf" None false false false.
Definition sample_args_md : Args := mkArgs "spec.pdf" None true false false.
Definition notes_args : Args := mkArgs "notes.txt" None false false false.

(** What success needs: a valid input, an engine that returns, and a file
    system that accepts the write. *)
Definition succeeds (env : Env) (args : Args) (w : World) : Prop :=
  exists_in w (input_path args) = true /\
  is_pdf (input_path args) = true /\
  exists out md,
    determine_output args (input_path args) = Ok out /\
    snd (engine_call env args) = Ok md /\
    open_error env (Path.to_string out) = None /\
    write_error env (Path.to_string out) (output_content args md) = None.

(** The heading of the next-steps guide, as an event. *)
Definition is_guide_heading (e : event) : bool :=
  match e with
  | Stdout s => String.eqb s ((Text.nl +:+ "Next steps:") +:+ Text.nl)
  | _ => false
  end.

Definition engine_returns (env : Env) (args : Args) : bool :=
  match snd (engine_call env args) with Ok _ => true | _ => false end.

(** Whether an event is a file operation on the path [k]. *)
Definition on_path (k : string) (e : event) : bool :=
  match e with
  | OpenW q => String.eqb q k
  | WriteF q _ => String.eqb q k
  | _ => false
  end.

(** The namespace [args] with another [-o/--output] value. *)
Definition set_output (o : option string) (args : Args) : Args :=
  mkArgs (pdf_file args) o (markdown_only args) (keep_headers args)
         (include_empty_tables args).

Definition override_args : Args :=
  mkArgs "spec.pdf" (Some "out/result.txt") true false false.

Definition upper_case_args : Args := mkArgs "./docs/Spec.V2.PDF" None false true true.









Definition docs_world : World :=
  mkWorld {[ "docs/Spec.V2.PDF" := "%PDF-1.4"; "docs/Spec.V2.yaml" := "old" ]}
          {[ "docs" ]} ∅ [].

(** * Examples *)

Example path_ex1 : Path.to_string (Path.of_string "./docs//spec.v2.PDF") = "docs/spec.v2.PDF".
Proof. vm_compute. reflexivity. Qed.
Example path_ex2 : Path.suffix (Path.of_string "./docs//spec.v2.PDF") = ".PDF".
Proof. vm_compute. reflexivity. Qed.
Example path_ex3 : Path.with_suffix (Path.of_string "/a/spec.v2.PDF") ".yaml"
   = Ok (Path.of_string "/a/spec.v2.yaml").
Proof. vm_compute. reflexivity. Qed.
Example path_ex4 : Path.suffix (Path.of_string ".pdf") = EmptyString.
Proof. vm_compute. reflexivity. Qed.
Example path_ex5 : Path.to_string (Path.of_string EmptyString) = ".".
Proof. vm_compute. reflexivity. Qed.
Example fmt_ex : Format.format "a{}b{{}}" ["XY"] = Ok "aXYb{}".
Proof. vm_compute. reflexivity. Qed.
Example format_1f_ex1 : Num.format_1f 100%float = "100.0".
Proof. vm_compute. reflexivity. Qed.
Example format_1f_ex2 : Num.format_1f 0x1.0aaaaaaaaaaabp+5%float = "33.3".
Proof. vm_compute. reflexivity. Qed.
Example format_1f_ex3 : Num.format_1f 0.25%float = "0.2".
Proof. vm_compute. reflexivity. Qed.
Example format_1f_ex4 : Num.format_1f 0x1.0aaaaaaaaaaabp+6%float = "66.7".
Proof. vm_compute. reflexivity. Qed.
Example format_1f_ex5 : Num.format_1f (-0x1.47ae147ae147bp-7)%float = "-0.0".
Proof. vm_compute. reflexivity. Qed.
Example format_1f_ex6 : Num.format_1f 0.75%float = "0.8".
Proof. vm_compute. reflexivity. Qed.

(** * Properties of the text helpers *)

Section TextFacts.

Implicit Types s t u : string.

Lemma str_app_cons c s t : String c s +:+ t = String c (s +:+ t).
Proof. reflexivity. Qed.

Lemma str_app_nil_r s : s +:+ EmptyString = s.
Proof.
  induction s as [|c s IH]; [reflexivity|]. now rewrite str_app_cons, IH.
Qed.

Lemma str_app_assoc s t u : (s +:+ t) +:+ u = s +:+ (t +:+ u).
Proof.
  induction s as [|c s IH]; [reflexivity|]. now rewrite !str_app_cons, IH.
Qed.

Lemma str_length_app s t :
  String.length (s +:+ t) = (String.length s + String.length t)%nat.
Proof.
  induction s as [|c s IH]; [reflexivity|]. rewrite str_app_cons. cbn.
  now rewrite IH.
Qed.

Lemma length_lower s : String.length (Text.lower s) = String.length s.
Proof. induction s as [|c s IH]; cbn; [reflexivity | now rewrite IH]. Qed.

Lemma take_drop i s : Text.take i s +:+ Text.drop i s = s.
Proof.
  revert s; induction i as [|i IH]; intros [|c s]; cbn; try reflexivity.
  now rewrite str_app_cons, IH.
Qed.

Lemma length_drop i s :
  String.length (Text.drop i s) = (String.length s - i)%nat.
Proof.
  revert s; induction i as [|i IH]; intros [|c s]; cbn; try reflexivity.
  apply IH.
Qed.


Lemma drop_app_length s t : Text.drop (String.length s) (s +:+ t) = t.
Proof. induction s as [|c s IH]; [reflexivity | exact IH]. Qed.

Lemma prefix_app n s t :
  String.prefix n s = true -> String.prefix n (s +:+ t) = true.
Proof.
  revert s; induction n as [|c n IH]; intros s H; [now destruct (s +:+ t)|].
  destruct s as [|d s]; cbn in H; [discriminate|].
  rewrite str_app_cons. cbn. destruct (ascii_dec c d); [now apply IH | discriminate].
Qed.

Lemma occurs_app_l n s t : occurs n s = true -> occurs n (s +:+ t) = true.
Proof.
  induction s as [|c s IH]; intros H.
  - cbn in H. rewrite orb_false_r in H.
    destruct n; [|discriminate]. now destruct t.
  - cbn [occurs] in H. apply orb_true_iff in H as [H|H].
    + rewrite str_app_cons. cbn [occurs].
      rewrite <- str_app_cons, (prefix_app _ _ _ H). reflexivity.
    + rewrite str_app_cons. cbn [occurs]. rewrite (IH H). apply orb_true_r.
Qed.

Lemma endswith_app s t : endswith (s +:+ t) t = true.
Proof.
  unfold endswith. rewrite str_length_app.
  replace (String.length s + String.length t - String.length t)%nat
    with (String.length s) by lia.
  rewrite drop_app_length, String.eqb_refl.
  apply andb_true_iff; split; [apply Nat.leb_le; lia | reflexivity].
Qed.

Lemma endswith_inv s t : endswith s t = true -> exists p, s = p +:+ t.
Proof.
  unfold endswith. intros H. apply andb_true_iff in H as [_ H].
  apply String.eqb_eq in H.
  exists (Text.take (String.length s - String.length t) s).
  rewrite <- H at 2. symmetry. apply take_drop.
Qed.

End TextFacts.

(** * Properties of paths *)

Section PathFacts.

Implicit Types p : Path.t.

Lemma join_snoc l x : Text.join "/" (l ++ [x]) = lead l +:+ x.
Proof.
  induction l as [|a l IH]; [reflexivity|].
  destruct l as [|b l].
  - cbn [app Text.join lead]. now rewrite str_app_assoc.
  - change (Text.join "/" ((a :: b :: l) ++ [x]))
      with (a +:+ "/" +:+ Text.join "/" ((b :: l) ++ [x])).
    rewrite IH. unfold lead.
    change (Text.join "/" (a :: b :: l))
      with (a +:+ "/" +:+ Text.join "/" (b :: l)).
    now rewrite !str_app_assoc.
Qed.

Lemma to_string_parts p :
  Path.parts p <> [] ->
  Path.to_string p = Path.root p +:+ Text.join "/" (Path.parts p).
Proof.
  unfold Path.to_string. destruct (Path.root p), (Path.parts p); congruence.
Qed.

(** A non-empty suffix is a proper tail of the name. *)
Lemma suffix_split p :
  Path.suffix p <> EmptyString ->
  Path.name p =
    Text.take (String.length (Path.name p) - String.length (Path.suffix p))
              (Path.name p) +:+ Path.suffix p.
Proof.
  unfold Path.suffix. set (n := Path.name p).
  destruct (Text.rfind Path.dot n) as [i|]; [|congruence].
  destruct (Nat.ltb 0 i && Nat.ltb i (String.length n - 1))%bool eqn:E;
    [|congruence].
  intros _. apply andb_true_iff in E as [_ E]. apply Nat.ltb_lt in E.
  rewrite length_drop.
  replace (String.length n - (String.length n - i))%nat with i by lia.
  symmetry. apply take_drop.
Qed.

Lemma name_parts p :
  Path.name p <> EmptyString ->
  Path.parts p = removelast (Path.parts p) ++ [Path.name p].
Proof.
  unfold Path.name. intros H. apply app_removelast_last.
  intros E. rewrite E in H. now apply H.
Qed.

Lemma pdf_suffix_length p :
  Text.lower (Path.suffix p) = ".pdf" -> String.length (Path.suffix p) = 4%nat.
Proof. intros H. now rewrite <- length_lower, H. Qed.

(** Replacing a [.pdf] suffix: the path text keeps everything before the
    suffix and ends with the new one. *)
Lemma with_suffix_replaces p new :
  Text.lower (Path.suffix p) = ".pdf" ->
  new = ".md" \/ new = ".yaml" ->
  exists out stem,
    Path.with_suffix p new = Ok out /\
    Path.to_string p = stem +:+ Path.suffix p /\
    Path.to_string out = stem +:+ new.
Proof.
  intros Hpdf Hnew.
  pose proof (pdf_suffix_length p Hpdf) as Hlen.
  assert (Hsfx : Path.suffix p <> EmptyString).
  { intros E. rewrite E in Hlen. discriminate. }
  pose proof (suffix_split p Hsfx) as Hname.
  set (st := Text.take (String.length (Path.name p)
                        - String.length (Path.suffix p)) (Path.name p)) in *.
  assert (Hne : Path.name p <> EmptyString).
  { rewrite Hname. intros E. apply (f_equal String.length) in E.
    rewrite str_length_app, Hlen in E. cbn in E. lia. }
  pose proof (name_parts p Hne) as Hparts.
  set (init := removelast (Path.parts p)) in *.
  exists (Path.mk (Path.root p) (init ++ [st +:+ new])),
         (Path.root p +:+ lead init +:+ st).
  split; [|split].
  - unfold Path.with_suffix.
    apply String.eqb_neq in Hne, Hsfx. rewrite Hne, Hsfx.
    destruct Hnew as [-> | ->]; reflexivity.
  - rewrite to_string_parts by (rewrite Hparts; now destruct init).
    rewrite Hparts, join_snoc. rewrite Hname at 1.
    now rewrite !str_app_assoc.
  - rewrite to_string_parts by (cbn; now destruct init).
    cbn [Path.root Path.parts]. rewrite join_snoc.
    now rewrite !str_app_assoc.
Qed.

End PathFacts.

(** * Symbolic execution of the program *)

Section RunFacts.

Variable env : Env.

Lemma emit_nil w : emit [] w = w.
Proof. destruct w. unfold emit. cbn. now rewrite List.app_nil_r. Qed.

Lemma emit_emit es1 es2 w : emit es2 (emit es1 w) = emit (es1 ++ es2) w.
Proof. unfold emit. cbn. now rewrite <- app_assoc. Qed.

Lemma log_emit e w : log e w = emit [e] w.
Proof. reflexivity. Qed.

Lemma print_run s w : print s w = (Ok tt, emit [Stdout (s +:+ Text.nl)] w).
Proof. reflexivity. Qed.

Lemma print_all_run l w : print_all l w = (Ok tt, emit (printed l) w).
Proof.
  revert w; induction l as [|s l IH]; intros w.
  - cbn. now rewrite emit_nil.
  - cbn [print_all]. unfold bind. rewrite print_run, IH, emit_emit.
    reflexivity.
Qed.

Lemma progress_callback_run p w :
  progress_callback p w = (Ok tt, emit (callback_events p) w).
Proof.
  unfold progress_callback, callback_events, bind, print_end.
  rewrite str_app_nil_r.
  destruct (Num.ge_100 (percentage p)); [|reflexivity].
  now rewrite print_run, log_emit, emit_emit.
Qed.

Lemma report_run evs w :
  report progress_callback evs w = (Ok tt, emit (progress_events evs) w).
Proof.
  revert w; induction evs as [|p evs IH]; intros w.
  - cbn. now rewrite emit_nil.
  - cbn [report]. unfold bind. rewrite progress_callback_run, IH, emit_emit.
    reflexivity.
Qed.

Lemma pdf_to_markdown_run pdf_path rh se w :
  pdf_to_markdown env pdf_path rh se w =
    let '(evs, r) := engine env (Path.to_string pdf_path) rh se "### Table" in
    (r, emit (conversion_events pdf_path rh se evs) w).
Proof.
  unfold pdf_to_markdown, convert, bind at 1 2. rewrite print_run.
  destruct (engine env (Path.to_string pdf_path) rh se "### Table") as [evs r].
  unfold bind. rewrite log_emit, report_run, !emit_emit.
  unfold lift, ret, conversion_events. cbn [app].
  rewrite !str_app_assoc. now destruct r.
Qed.

Lemma template_run md :
  markdown_to_yaml_template md = Ok (scaffold +:+ md +:+ Text.nl).
Proof. vm_compute. reflexivity. Qed.

End RunFacts.

Section MainFacts.

Variable env : Env.
Variable args : Args.

Local Abbreviation p := (input_path args).

Lemma set_file_twice k c1 c2 w :
  set_file k c2 (set_file k c1 w) = set_file k c2 w.
Proof. unfold set_file. cbn. now rewrite insert_insert_eq. Qed.

Lemma set_file_emit k c es w :
  set_file k c (emit es w) = emit es (set_file k c w).
Proof. reflexivity. Qed.

(** The file write, case by case. *)
Lemma write_text_run path content w :
  write_text env path content w =
    match open_error env path with
    | Some e => (Raise e, emit [OpenW path] w)
    | None =>
        match write_error env path content with
        | Some (e, n) =>
            (Raise e, emit [OpenW path; WriteF path content]
                           (set_file path (Text.take n content) w))
        | None =>
            (Ok tt, emit [OpenW path; WriteF path content]
                         (set_file path content w))
        end
    end.
Proof.
  unfold write_text. destruct (open_error env path); [reflexivity|].
  rewrite !log_emit.
  destruct (write_error env path content) as [[e n]|];
    now rewrite !set_file_emit, set_file_twice, emit_emit.
Qed.

(** The body of the [try] block, case by case on what the engine does. *)
Lemma convert_and_save_run out w :
  convert_and_save env args p out w =
    let w1 := emit (conversion_events p (negb (keep_headers args))
                      (negb (include_empty_tables args))
                      (fst (engine_call env args))) w in
    match snd (engine_call env args) with
    | Ok md =>
        write_text env (Path.to_string out) (output_content args md)
                   (emit (saved_events args out) w1)
    | Raise e => (Raise e, w1)
    | SysExit c => (SysExit c, w1)
    end.
Proof.
  unfold convert_and_save, bind at 1. rewrite pdf_to_markdown_run.
  unfold engine_call. fold (input_path args).
  destruct (engine env (Path.to_string p) (negb (keep_headers args))
              (negb (include_empty_tables args)) "### Table") as [evs r].
  cbn [fst snd]. destruct r as [md| |]; try reflexivity.
  unfold bind at 1, saved_events, output_content.
  destruct (markdown_only args).
  - unfold bind. rewrite print_run. reflexivity.
  - unfold bind at 1, lift. rewrite template_run.
    unfold bind. rewrite !print_run, print_all_run, !emit_emit.
    reflexivity.
Qed.

Lemma exists_in_examined w q :
  exists_in w q = true -> stat_errors w !! Path.to_string q = None.
Proof.
  unfold exists_in. intros H. apply andb_true_iff in H as [H _].
  now apply bool_decide_eq_true in H.
Qed.

(** An error of the existence check is raised before anything else
    happens, outside the [try] block. *)
Lemma main_stat_error w e :
  stat_errors w !! Path.to_string p = Some e ->
  main env args w = (Raise e, w).
Proof.
  intros H. unfold main, bind at 1, path_exists.
  fold (input_path args). now rewrite H.
Qed.

Lemma main_not_found w :
  stat_errors w !! Path.to_string p = None ->
  exists_in w p = false ->
  main env args w =
    (SysExit 1, emit [Stdout (not_found_message p +:+ Text.nl)] w).
Proof.
  intros H0 H. unfold main, bind at 1, path_exists.
  fold (input_path args). rewrite H0, H. reflexivity.
Qed.

(** A path for which the check does not answer [True]: either the check
    raised, or the program reports the path as not found. *)
Lemma main_missing w :
  exists_in w p = false ->
  (exists e, stat_errors w !! Path.to_string p = Some e /\
             main env args w = (Raise e, w)) \/
  (stat_errors w !! Path.to_string p = None /\
   main env args w =
     (SysExit 1, emit [Stdout (not_found_message p +:+ Text.nl)] w)).
Proof.
  intros H. destruct (stat_errors w !! Path.to_string p) as [e|] eqn:E.
  - left. exists e. split; [reflexivity|]. now apply main_stat_error.
  - right. split; [reflexivity|]. now apply main_not_found.
Qed.

Lemma main_not_pdf w :
  exists_in w p = true -> is_pdf p = false ->
  main env args w =
    (SysExit 1, emit [Stdout (not_pdf_message p +:+ Text.nl)] w).
Proof.
  intros H1 H2. unfold main, bind at 1, path_exists.
  fold (input_path args). rewrite (exists_in_examined w p H1), H1. cbn [negb].
  unfold is_pdf in H2. rewrite H2. reflexivity.
Qed.

Lemma main_valid w out :
  exists_in w p = true -> is_pdf p = true ->
  determine_output args p = Ok out ->
  main env args w = try_except (convert_and_save env args p out) handler w.
Proof.
  intros H1 H2 H3. unfold main, bind at 1, path_exists.
  fold (input_path args). rewrite (exists_in_examined w p H1), H1. cbn [negb].
  unfold is_pdf in H2. rewrite H2. cbn [negb].
  unfold bind, lift. rewrite H3. reflexivity.
Qed.

Lemma handler_run e w :
  handler e w = (SysExit 1, emit [Stdout (error_message e +:+ Text.nl)] w).
Proof. reflexivity. Qed.

(** After validation the output path is always determined. *)
Lemma determine_output_ok :
  is_pdf p = true -> exists out, determine_output args p = Ok out.
Proof.
  intros H. apply String.eqb_eq in H. unfold determine_output.
  destruct (truthy (output args)); [eauto|].
  destruct (with_suffix_replaces p (if markdown_only args then ".md" else ".yaml") H)
    as (out & _ & Hout & _); [destruct (markdown_only args); auto | eauto].
Qed.

(** A run on a valid input, case by case: the engine returns, raises or
    exits; opening the output fails; writing fails; everything succeeds. *)
Lemma main_valid_run w out :
  exists_in w p = true -> is_pdf p = true ->
  determine_output args p = Ok out ->
  let o := Path.to_string out in
  let conv := conversion_events p (negb (keep_headers args))
                (negb (include_empty_tables args))
                (fst (engine_call env args)) in
  let saved := saved_events args out in
  main env args w =
    match snd (engine_call env args) with
    | Ok md =>
        let c := output_content args md in
        match open_error env o with
        | Some e =>
            (SysExit 1,
             emit (conv ++ saved ++ [OpenW o; Stdout (error_message e +:+ Text.nl)]) w)
        | None =>
            match write_error env o c with
            | Some (e, n) =>
                (SysExit 1,
                 emit (conv ++ saved ++
                       [OpenW o; WriteF o c; Stdout (error_message e +:+ Text.nl)])
                      (set_file o (Text.take n c) w))
            | None =>
                (Ok tt,
                 emit (conv ++ saved ++ [OpenW o; WriteF o c]) (set_file o c w))
            end
        end
    | Raise e =>
        (SysExit 1, emit (conv ++ [Stdout (error_message e +:+ Text.nl)]) w)
    | SysExit code => (SysExit code, emit conv w)
    end.
Proof.
  intros H1 H2 H3 o conv saved. rewrite (main_valid w out H1 H2 H3).
  unfold try_except. rewrite convert_and_save_run.
  fold conv. fold saved. fold o. cbv zeta.
  destruct (snd (engine_call env args)) as [md|e|code].
  - rewrite write_text_run.
    destruct (open_error env o) as [e|].
    + rewrite handler_run, !emit_emit, <- ?app_assoc. reflexivity.
    + destruct (write_error env o (output_content args md)) as [[e n]|].
      * rewrite handler_run, <- !set_file_emit, !emit_emit, <- ?app_assoc.
        reflexivity.
      * rewrite <- !set_file_emit, !emit_emit, <- ?app_assoc. reflexivity.
  - rewrite handler_run, !emit_emit. reflexivity.
  - reflexivity.
Qed.

End MainFacts.

(** The progress hook only writes to standard output. *)
Lemma progress_events_no_file_event (l : list Progress) :
  List.filter is_file_event (progress_events l) = [].
Proof.
  unfold progress_events. induction l as [|q l IH]; [reflexivity|].
  cbn [map concat]. rewrite List.filter_app, IH.
  unfold callback_events. now destruct (Num.ge_100 (percentage q)).
Qed.

Lemma progress_events_no_convert (l : list Progress) :
  List.filter is_convert (progress_events l) = [].
Proof.
  unfold progress_events. induction l as [|q l IH]; [reflexivity|].
  cbn [map concat]. rewrite List.filter_app, IH.
  unfold callback_events. now destruct (Num.ge_100 (percentage q)).
Qed.

(** * The claims *)

(** C1. On an existing input path whose extension is [.pdf] in any letter
    case, and with no [-o/--output] argument, the output path is the input
    path (as [Path] prints it) with that extension replaced: by [.yaml]
    when the markdown-only flag is absent, by [.md] when it is present. The
    run continues with that path. *)
Theorem output_path_replaces_extension (env : Env) (args : Args) (w : World) :
  exists_in w (input_path args) = true ->
  is_pdf (input_path args) = true ->
  output args = None ->
  exists out stem ext,
    Path.to_string (input_path args) = stem +:+ ext /\
    Text.lower ext = ".pdf" /\
    Path.to_string out =
      stem +:+ (if markdown_only args then ".md" else ".yaml") /\
    determine_output args (input_path args) = Ok out /\
    main env args w =
      try_except (convert_and_save env args (input_path args) out) handler w.
Proof.
  intros Hex Hpdf Hout.
  pose proof Hpdf as Hlow. apply String.eqb_eq in Hlow.
  destruct (with_suffix_replaces (input_path args)
              (if markdown_only args then ".md" else ".yaml") Hlow)
    as (out & stem & Hws & Hin & Hto).
  { destruct (markdown_only args); auto. }
  assert (Hdet : determine_output args (input_path args) = Ok out).
  { unfold determine_output. rewrite Hout. exact Hws. }
  exists out, stem, (Path.suffix (input_path args)).
  repeat split; try assumption.
  now apply main_valid.
Qed.

Lemma output_path_replaces_extension_witness :
  (exists_in sample_world (input_path sample_args_md) = true /\
   is_pdf (input_path sample_args_md) = true /\
   output sample_args_md = None) /\
  exists out stem ext,
    Path.to_string (input_path sample_args_md) = stem +:+ ext /\
    Text.lower ext = ".pdf" /\
    Path.to_string out = stem +:+ ".md" /\
    determine_output sample_args_md (input_path sample_args_md) = Ok out /\
    main good_env sample_args_md sample_world =
      try_except (convert_and_save good_env sample_args_md
                    (input_path sample_args_md) out) handler sample_world.
Proof.
  split; [repeat split; vm_compute; reflexivity|].
  apply (output_path_replaces_extension good_env sample_args_md sample_world);
    vm_compute; reflexivity.
Defined.




(** What a successful run looks like: the engine returned, and the file now
    holds the output text. *)
Lemma successful_run (env : Env) (args : Args) (w w' : World) :
  main env args w = (Ok tt, w') ->
  exists out md,
    exists_in w (input_path args) = true /\
    is_pdf (input_path args) = true /\
    determine_output args (input_path args) = Ok out /\
    snd (engine_call env args) = Ok md /\
    w' = emit (conversion_events (input_path args) (negb (keep_headers args))
                 (negb (include_empty_tables args)) (fst (engine_call env args))
               ++ saved_events args out
               ++ [OpenW (Path.to_string out);
                   WriteF (Path.to_string out) (output_content args md)])
              (set_file (Path.to_string out) (output_content args md) w).
Proof.
  intros Hrun.
  destruct (exists_in w (input_path args)) eqn:Hex;
    [|destruct (main_missing env args w Hex) as [(e & _ & Hm) | [_ Hm]];
      rewrite Hm in Hrun; discriminate].
  destruct (is_pdf (input_path args)) eqn:Hpdf;
    [|rewrite (main_not_pdf env args w Hex Hpdf) in Hrun; discriminate].
  destruct (determine_output_ok args Hpdf) as [out Hout].
  rewrite (main_valid_run env args w out Hex Hpdf Hout) in Hrun.
  cbv zeta in Hrun.
  exists out.
  destruct (snd (engine_call env args)) as [md|e|code]; try discriminate.
  exists md.
  destruct (open_error env (Path.to_string out)); [discriminate|].
  destruct (write_error env (Path.to_string out) (output_content args md))
    as [[e n]|]; [discriminate|].
  injection Hrun as <-. auto.
Qed.

(** C3. In markdown-only mode, after every successful run the output file
    holds exactly the text the engine returned: the one write of the run
    carries that text, and nothing is added to it. *)
Theorem markdown_only_writes_markdown (env : Env) (args : Args) (w w' : World) :
  markdown_only args = true ->
  main env args w = (Ok tt, w') ->
  exists out md,
    determine_output args (input_path args) = Ok out /\
    snd (engine_call env args) = Ok md /\
    files w' = <[Path.to_string out := md]> (files w) /\
    files w' !! Path.to_string out = Some md /\
    List.filter is_file_event (trace w') =
      List.filter is_file_event (trace w)
      ++ [OpenW (Path.to_string out); WriteF (Path.to_string out) md].
Proof.
  intros Hmd Hrun.
  destruct (successful_run env args w w' Hrun)
    as (out & md & _ & _ & Hout & Heng & ->).
  exists out, md. unfold output_content, saved_events. rewrite Hmd.
  repeat split; try assumption.
  - cbn. apply lookup_insert_eq.
  - cbn [emit trace]. rewrite !List.filter_app. f_equal.
    unfold conversion_events. cbn.
    now rewrite progress_events_no_file_event.
Qed.

Lemma markdown_only_writes_markdown_witness :
  (markdown_only sample_args_md = true /\
   exists w', main good_env sample_args_md sample_world = (Ok tt, w')) /\
  exists out md,
    determine_output sample_args_md (input_path sample_args_md) = Ok out /\
    snd (engine_call good_env sample_args_md) = Ok md /\
    files (snd (main good_env sample_args_md sample_world))
      = <[Path.to_string out := md]> (files sample_world) /\
    files (snd (main good_env sample_args_md sample_world))
      !! Path.to_string out = Some md /\
    List.filter is_file_event (trace (snd (main good_env sample_args_md sample_world))) =
      List.filter is_file_event (trace sample_world)
      ++ [OpenW (Path.to_string out); WriteF (Path.to_string out) md].
Proof.
  split.
  - split; [reflexivity|]. eexists. vm_compute. reflexivity.
  - apply (markdown_only_writes_markdown good_env sample_args_md sample_world
             (snd (main good_env sample_args_md sample_world)));
      vm_compute; reflexivity.
Defined.

(** The scaffold names the five keys and closes with the marker line. *)
Lemma scaffold_keys :
  occurs "title:" scaffold = true /\ occurs "purpose:" scaffold = true /\
  occurs "features:" scaffold = true /\ occurs "metrics:" scaffold = true /\
  occurs "constraints:" scaffold = true.
Proof. repeat split; vm_compute; reflexivity. Qed.

Lemma scaffold_marker : endswith scaffold ("---" +:+ Text.nl) = true.
Proof. vm_compute. reflexivity. Qed.

(** C4, as stated, fails: in default mode the template puts a newline after
    the Markdown, so the file written for the Markdown text [# T] ends
    neither with that text nor with the marker line followed by it. *)
Lemma default_file_does_not_end_with_markdown :
  exists w' content,
    markdown_only sample_args = false /\
    snd (engine_call good_env sample_args) = Ok "# T" /\
    main good_env sample_args sample_world = (Ok tt, w') /\
    files w' !! "spec.yaml" = Some content /\
    endswith content "# T" = false /\
    endswith content ("---" +:+ Text.nl +:+ "# T") = false.
Proof.
  eexists. eexists. repeat split; vm_compute; reflexivity.
Qed.

(** C4, amended. In default mode, after every successful run the output
    file holds the scaffold, with its five keys, and ends with the marker
    line, the exact Markdown text, and the one newline the template adds. *)
Theorem default_mode_file_layout (env : Env) (args : Args) (w w' : World) :
  markdown_only args = false ->
  main env args w = (Ok tt, w') ->
  exists out md content,
    determine_output args (input_path args) = Ok out /\
    snd (engine_call env args) = Ok md /\
    files w' !! Path.to_string out = Some content /\
    content = scaffold +:+ md +:+ Text.nl /\
    endswith content ("---" +:+ Text.nl +:+ md +:+ Text.nl) = true /\
    (occurs "title:" content = true /\ occurs "purpose:" content = true /\
     occurs "features:" content = true /\ occurs "metrics:" content = true /\
     occurs "constraints:" content = true).
Proof.
  intros Hmd Hrun.
  destruct (successful_run env args w w' Hrun)
    as (out & md & _ & _ & Hout & Heng & ->).
  exists out, md, (scaffold +:+ md +:+ Text.nl).
  unfold output_content. rewrite Hmd.
  split; [exact Hout|]. split; [exact Heng|].
  split; [cbn; apply lookup_insert_eq|]. split; [reflexivity|].
  split.
  - destruct (endswith_inv _ _ scaffold_marker) as [body Hbody].
    rewrite Hbody, !str_app_assoc.
    apply (endswith_app body ("---" +:+ Text.nl +:+ md +:+ Text.nl)).
  - destruct scaffold_keys as (K1 & K2 & K3 & K4 & K5).
    repeat split; now apply occurs_app_l.
Qed.

Lemma default_mode_file_layout_witness :
  (markdown_only sample_args = false /\
   exists w', main good_env sample_args sample_world = (Ok tt, w')) /\
  exists out md content,
    determine_output sample_args (input_path sample_args) = Ok out /\
    snd (engine_call good_env sample_args) = Ok md /\
    files (snd (main good_env sample_args sample_world))
      !! Path.to_string out = Some content /\
    content = scaffold +:+ md +:+ Text.nl /\
    endswith content ("---" +:+ Text.nl +:+ md +:+ Text.nl) = true /\
    (occurs "title:" content = true /\ occurs "purpose:" content = true /\
     occurs "features:" content = true /\ occurs "metrics:" content = true /\
     occurs "constraints:" content = true).
Proof.
  split.
  - split; [reflexivity|]. eexists. vm_compute. reflexivity.
  - apply (default_mode_file_layout good_env sample_args sample_world
             (snd (main good_env sample_args sample_world)));
      vm_compute; reflexivity.
Defined.

(** C5. Whatever the run, the engine calls it makes are exactly: none when
    validation fails, and otherwise one call, on the input path, with
    [remove_headers] the negation of [--keep-headers], [skip_empty_tables]
    the negation of [--include-empty-tables], and the table heading
    [### Table]. So both options are on by default and each flag turns its
    option off. *)
Theorem converter_flags_are_negated (env : Env) (args : Args) (w : World) :
  exists es,
    trace (snd (main env args w)) = trace w ++ es /\
    List.filter is_convert es =
      (if exists_in w (input_path args) && is_pdf (input_path args)
       then [Convert (Path.to_string (input_path args))
                     (negb (keep_headers args))
                     (negb (include_empty_tables args)) "### Table"]
       else []).
Proof.
  destruct (exists_in w (input_path args)) eqn:Hex.
  2:{ destruct (main_missing env args w Hex) as [(e & _ & ->) | [_ ->]].
      - exists []. split; [now rewrite List.app_nil_r | reflexivity].
      - eexists. split; reflexivity. }
  destruct (is_pdf (input_path args)) eqn:Hpdf.
  2:{ rewrite (main_not_pdf env args w Hex Hpdf). eexists. split; reflexivity. }
  destruct (determine_output_ok args Hpdf) as [out Hout].
  rewrite (main_valid_run env args w out Hex Hpdf Hout). cbv zeta.
  assert (Hsaved : List.filter is_convert (saved_events args out) = []).
  { unfold saved_events. now destruct (markdown_only args). }
  assert (Hconv : List.filter is_convert
            (conversion_events (input_path args) (negb (keep_headers args))
               (negb (include_empty_tables args)) (fst (engine_call env args)))
          = [Convert (Path.to_string (input_path args))
                     (negb (keep_headers args))
                     (negb (include_empty_tables args)) "### Table"]).
  { unfold conversion_events. cbn [List.filter is_convert].
    now rewrite progress_events_no_convert. }
  destruct (snd (engine_call env args)) as [md|e|code].
  - destruct (open_error env (Path.to_string out)).
    + eexists. split; [reflexivity|].
      now rewrite !List.filter_app, Hconv, Hsaved.
    + destruct (write_error env (Path.to_string out) (output_content args md))
        as [[e n]|]; (eexists; split; [reflexivity|]);
        now rewrite !List.filter_app, Hconv, Hsaved.
  - eexists. split; [reflexivity|]. now rewrite List.filter_app, Hconv.
  - eexists. split; [reflexivity|]. exact Hconv.
Qed.

(** C6. For every progress event the hook writes one line that starts with
    a carriage return and shows the phase, the current page, the total
    number of pages and the percentage with one decimal, without a line
    break; when the percentage has reached 100 a newline follows. Nothing
    else happens, and the engine's events are handled one by one, in
    order. *)
Theorem progress_line_written (p : Progress) (evs : list Progress) (w : World) :
  progress_callback p w =
    (Ok tt,
     emit (Stdout (Text.cr +:+ "Phase: " +:+ phase p
                   +:+ ", Page " +:+ pretty (current_page p)
                   +:+ "/" +:+ pretty (total_pages p)
                   +:+ ", Progress: " +:+ Num.format_1f (percentage p) +:+ "%")
           :: (if Num.ge_100 (percentage p) then [Stdout Text.nl] else [])) w) /\
  Num.ge_100 100%float = true /\
  report progress_callback evs w =
    (Ok tt, emit (concat (map callback_events evs)) w).
Proof.
  split; [apply progress_callback_run|].
  split; [reflexivity|]. apply report_run.
Qed.

(** A progress line is never a bare newline. *)
Lemma progress_line_not_newline (p : Progress) :
  is_newline (Stdout (progress_line p)) = false.
Proof. reflexivity. Qed.

Lemma newlines_callback (p : Progress) :
  newlines (callback_events p) = if Num.ge_100 (percentage p) then 1%nat else 0%nat.
Proof.
  unfold newlines, callback_events. cbn [List.filter].
  rewrite progress_line_not_newline.
  now destruct (Num.ge_100 (percentage p)).
Qed.

(** C10. The newline follows every event whose percentage is at least 100,
    not only one that is exactly 100: over the events of a conversion the
    number of newlines is the number of such events. Two events at or above
    100 give two newlines, and events that stay below 100 give none. *)
Theorem newline_per_event_at_or_above_100 (evs : list Progress) (w : World) :
  report progress_callback evs w = (Ok tt, emit (progress_events evs) w) /\
  newlines (progress_events evs) =
    length (List.filter (fun p => Num.ge_100 (percentage p)) evs) /\
  Num.ge_100 100%float = true /\
  Num.ge_100 250.5%float = true /\
  Num.ge_100 99.5%float = false /\
  newlines (progress_events [mkProgress "conversion" 1 1 100%float;
                             mkProgress "conversion" 1 1 120%float]) = 2%nat /\
  newlines (progress_events [mkProgress "conversion" 0 0 0%float;
                             mkProgress "conversion" 1 2 50%float]) = 0%nat.
Proof.
  split; [apply report_run|].
  split; [|repeat split; vm_compute; reflexivity].
  unfold progress_events, newlines.
  induction evs as [|p l IH]; [reflexivity|].
  cbn [map concat List.filter]. rewrite List.filter_app, length_app.
  fold (newlines (callback_events p)). rewrite newlines_callback, IH.
  now destruct (Num.ge_100 (percentage p)).
Qed.

(** Where an exception of the [try] block can come from: the engine, the
    opening of the output file, or the write. Building the output text never
    raises. *)
Lemma try_block_raise_sources (env : Env) (args : Args) (out : Path.t)
    (w w1 : World) (e : string) :
  convert_and_save env args (input_path args) out w = (Raise e, w1) ->
  snd (engine_call env args) = Raise e \/
  (exists md, snd (engine_call env args) = Ok md /\
     (open_error env (Path.to_string out) = Some e \/
      open_error env (Path.to_string out) = None /\
      exists n, write_error env (Path.to_string out) (output_content args md)
                = Some (e, n))).
Proof.
  rewrite convert_and_save_run. cbv zeta.
  destruct (snd (engine_call env args)) as [md|e'|code].
  - rewrite write_text_run. intros H. right. exists md. split; [reflexivity|].
    destruct (open_error env (Path.to_string out)) as [e'|].
    + left. injection H as -> _. reflexivity.
    + right. split; [reflexivity|].
      destruct (write_error env (Path.to_string out) (output_content args md))
        as [[e' n]|]; [|discriminate].
      injection H as -> _. eauto.
  - intros H. injection H as -> _. now left.
  - discriminate.
Qed.

(** C7. Every exception raised inside the [try] block, whether it comes from
    the conversion or from opening or writing the output file, meets the
    same handler: the program prints a newline, [Error converting PDF: ] and
    the exception's message, and exits with status 1. The handler does not
    tell the sources apart. *)
Theorem exceptions_share_one_handler (env : Env) (args : Args) (out : Path.t)
    (w w1 : World) (e : string) :
  exists_in w (input_path args) = true ->
  is_pdf (input_path args) = true ->
  determine_output args (input_path args) = Ok out ->
  convert_and_save env args (input_path args) out w = (Raise e, w1) ->
  main env args w =
    (SysExit 1,
     emit [Stdout ((Text.nl +:+ "Error converting PDF: " +:+ e) +:+ Text.nl)] w1) /\
  exit_code (fst (main env args w)) = 1 /\
  (snd (engine_call env args) = Raise e \/
   exists md, snd (engine_call env args) = Ok md /\
     (open_error env (Path.to_string out) = Some e \/
      open_error env (Path.to_string out) = None /\
      exists n, write_error env (Path.to_string out) (output_content args md)
                = Some (e, n))).
Proof.
  intros Hex Hpdf Hout Hraise.
  assert (Hmain : main env args w =
    (SysExit 1,
     emit [Stdout ((Text.nl +:+ "Error converting PDF: " +:+ e) +:+ Text.nl)] w1)).
  { rewrite (main_valid env args w out Hex Hpdf Hout).
    unfold try_except. rewrite Hraise. apply handler_run. }
  split; [exact Hmain|]. split; [now rewrite Hmain|].
  exact (try_block_raise_sources env args out w w1 e Hraise).
Qed.

Lemma exceptions_share_one_handler_witness :
  (exists_in sample_world (input_path sample_args) = true /\
   is_pdf (input_path sample_args) = true /\
   determine_output sample_args (input_path sample_args)
     = Ok (Path.of_string "spec.yaml") /\
   convert_and_save disk_full_env sample_args (input_path sample_args)
     (Path.of_string "spec.yaml") sample_world
     = (Raise "[Errno 28] No space left on device",
        snd (convert_and_save disk_full_env sample_args (input_path sample_args)
               (Path.of_string "spec.yaml") sample_world))) /\
  main disk_full_env sample_args sample_world =
    (SysExit 1,
     emit [Stdout ((Text.nl +:+ "Error converting PDF: "
                    +:+ "[Errno 28] No space left on device") +:+ Text.nl)]
          (snd (convert_and_save disk_full_env sample_args (input_path sample_args)
                  (Path.of_string "spec.yaml") sample_world))).
Proof.
  split; [repeat split; vm_compute; reflexivity|].
  apply (exceptions_share_one_handler disk_full_env sample_args
           (Path.of_string "spec.yaml") sample_world
           (snd (convert_and_save disk_full_env sample_args (input_path sample_args)
                   (Path.of_string "spec.yaml") sample_world))
           "[Errno 28] No space left on device");
    vm_compute; reflexivity.
Defined.





(** C9. The confirmation is printed before the output file is opened. In
    every run where the engine returned and opening or writing the file
    fails, the trace shows the save message (and, in default mode, the
    next-steps guide) before the first file operation, the error message
    last, and the exit code is 1. *)
Theorem confirmation_precedes_write (env : Env) (args : Args) (out : Path.t)
    (md e : string) (w : World) :
  exists_in w (input_path args) = true ->
  is_pdf (input_path args) = true ->
  determine_output args (input_path args) = Ok out ->
  snd (engine_call env args) = Ok md ->
  (open_error env (Path.to_string out) = Some e \/
   open_error env (Path.to_string out) = None /\
   exists n, write_error env (Path.to_string out) (output_content args md)
             = Some (e, n)) ->
  exists pre post,
    fst (main env args w) = SysExit 1 /\
    trace (snd (main env args w)) =
      trace w ++ pre ++ saved_events args out
      ++ OpenW (Path.to_string out) :: post
      ++ [Stdout (error_message e +:+ Text.nl)] /\
    List.filter is_file_event (pre ++ saved_events args out) = [] /\
    saved_events args out =
      (if markdown_only args then
         [Stdout (saved_markdown_message out +:+ Text.nl)]
       else
         Stdout (saved_yaml_message out +:+ Text.nl)
         :: Stdout ((Text.nl +:+ "Next steps:") +:+ Text.nl)
         :: printed next_steps).
Proof.
  intros Hex Hpdf Hout Heng Hfail.
  rewrite (main_valid_run env args w out Hex Hpdf Hout). cbv zeta.
  rewrite Heng.
  exists (conversion_events (input_path args) (negb (keep_headers args))
            (negb (include_empty_tables args)) (fst (engine_call env args))).
  assert (Hquiet : List.filter is_file_event
            (conversion_events (input_path args) (negb (keep_headers args))
               (negb (include_empty_tables args)) (fst (engine_call env args))
             ++ saved_events args out) = []).
  { rewrite List.filter_app. unfold conversion_events.
    cbn [List.filter is_file_event].
    rewrite progress_events_no_file_event.
    unfold saved_events. now destruct (markdown_only args). }
  assert (Hsaved : saved_events args out =
      (if markdown_only args then
         [Stdout (saved_markdown_message out +:+ Text.nl)]
       else
         Stdout (saved_yaml_message out +:+ Text.nl)
         :: Stdout ((Text.nl +:+ "Next steps:") +:+ Text.nl)
         :: printed next_steps)).
  { unfold saved_events. now destruct (markdown_only args). }
  destruct Hfail as [Hopen | [Hopen [n Hwrite]]]; rewrite Hopen.
  - exists []. repeat split; auto.
  - rewrite Hwrite.
    exists [WriteF (Path.to_string out) (output_content args md)].
    repeat split; auto.
Qed.

Lemma confirmation_precedes_write_witness :
  (exists_in sample_world (input_path sample_args) = true /\
   is_pdf (input_path sample_args) = true /\
   determine_output sample_args (input_path sample_args)
     = Ok (Path.of_string "spec.yaml") /\
   snd (engine_call read_only_env sample_args) = Ok "# T" /\
   open_error read_only_env "spec.yaml"
     = Some "[Errno 13] Permission denied: 'spec.yaml'") /\
  exists pre post,
    fst (main read_only_env sample_args sample_world) = SysExit 1 /\
    trace (snd (main read_only_env sample_args sample_world)) =
      trace sample_world ++ pre
      ++ saved_events sample_args (Path.of_string "spec.yaml")
      ++ OpenW "spec.yaml" :: post
      ++ [Stdout (error_message "[Errno 13] Permission denied: 'spec.yaml'"
                  +:+ Text.nl)] /\
    List.filter is_file_event
      (pre ++ saved_events sample_args (Path.of_string "spec.yaml")) = [] /\
    saved_events sample_args (Path.of_string "spec.yaml") =
      Stdout (saved_yaml_message (Path.of_string "spec.yaml") +:+ Text.nl)
      :: Stdout ((Text.nl +:+ "Next steps:") +:+ Text.nl)
      :: printed next_steps.
Proof.
  split; [repeat split; vm_compute; reflexivity|].
  apply (confirmation_precedes_write read_only_env sample_args
           (Path.of_string "spec.yaml") "# T"
           "[Errno 13] Permission denied: 'spec.yaml'" sample_world);
    try (vm_compute; reflexivity).
  left. vm_compute. reflexivity.
Defined.

(** * The runs of the specification's examples *)

(** [spec.pdf] with no flags: [spec.yaml] holds scaffold and Markdown. *)
Example run_default :
  fst (main good_env sample_args sample_world) = Ok tt /\
  files (snd (main good_env sample_args sample_world)) !! "spec.yaml"
    = Some (scaffold +:+ "# T" +:+ Text.nl) /\
  files (snd (main good_env sample_args sample_world)) !! "spec.md" = None.
Proof. repeat split; vm_compute; reflexivity. Qed.

(** [spec.pdf -m]: [spec.md] holds only the Markdown. *)
Example run_markdown_only :
  fst (main good_env sample_args_md sample_world) = Ok tt /\
  files (snd (main good_env sample_args_md sample_world)) !! "spec.md"
    = Some "# T" /\
  stdout_of (trace (snd (main good_env sample_args_md sample_world))) =
    "Converting spec.pdf to Markdown..." +:+ Text.nl
    +:+ Text.cr +:+ "Phase: analysis, Page 1/2, Progress: 50.0%"
    +:+ Text.cr +:+ "Phase: conversion, Page 2/2, Progress: 100.0%" +:+ Text.nl
    +:+ Text.nl +:+ "Markdown saved to: spec.md" +:+ Text.nl.
Proof. repeat split; vm_compute; reflexivity. Qed.

(** [notes.txt]: the message says it is not a PDF, exit code 1, no file. *)
Example run_not_pdf :
  main good_env notes_args sample_world =
    (SysExit 1,
     emit [Stdout ("Error: File 'notes.txt' is not a PDF" +:+ Text.nl)] sample_world).
Proof. vm_compute. reflexivity. Qed.

(** A failing engine: the handler prints its message, exit code 1. *)
Example run_engine_failure :
  fst (main broken_engine_env sample_args sample_world) = SysExit 1 /\
  stdout_of (trace (snd (main broken_engine_env sample_args sample_world))) =
    "Converting spec.pdf to Markdown..." +:+ Text.nl
    +:+ Text.nl +:+ "Error converting PDF: not a PDF document" +:+ Text.nl /\
  files (snd (main broken_engine_env sample_args sample_world))
    = files sample_world.
Proof. repeat split; vm_compute; reflexivity. Qed.

(** * Further properties of the program *)

(** ** The output path *)

(** A non-empty [-o/--output] value is the output path, whatever the
    markdown-only flag and the input's name: a successful run opens that
    path and leaves the output text there. *)
Theorem explicit_output_is_used (env : Env) (args : Args) (o : string)
    (w w' : World) :
  output args = Some o ->
  o <> EmptyString ->
  main env args w = (Ok tt, w') ->
  determine_output args (input_path args) = Ok (Path.of_string o) /\
  exists md,
    snd (engine_call env args) = Ok md /\
    files w' !! Path.to_string (Path.of_string o) = Some (output_content args md) /\
    List.filter is_file_event (trace w') =
      List.filter is_file_event (trace w)
      ++ [OpenW (Path.to_string (Path.of_string o));
          WriteF (Path.to_string (Path.of_string o)) (output_content args md)].
Proof.
  intros Ho Hne Hrun.
  assert (Hdet : determine_output args (input_path args) = Ok (Path.of_string o)).
  { unfold determine_output. rewrite Ho. cbn [truthy default].
    apply String.eqb_neq in Hne. now rewrite Hne. }
  split; [exact Hdet|].
  destruct (successful_run env args w w' Hrun)
    as (out & md & _ & _ & Hout & Heng & ->).
  rewrite Hdet in Hout. injection Hout as <-.
  exists md. split; [exact Heng|]. split.
  - cbn. apply lookup_insert_eq.
  - cbn [emit trace]. rewrite !List.filter_app. f_equal.
    unfold conversion_events. cbn [List.filter is_file_event].
    rewrite progress_events_no_file_event.
    unfold saved_events. now destruct (markdown_only args).
Qed.

Lemma explicit_output_is_used_witness :
  (output override_args = Some "out/result.txt" /\
   "out/result.txt" <> EmptyString /\
   exists w', main good_env override_args sample_world = (Ok tt, w')) /\
  determine_output override_args (input_path override_args)
    = Ok (Path.of_string "out/result.txt") /\
  exists md,
    snd (engine_call good_env override_args) = Ok md /\
    files (snd (main good_env override_args sample_world))
      !! Path.to_string (Path.of_string "out/result.txt")
      = Some (output_content override_args md) /\
    List.filter is_file_event (trace (snd (main good_env override_args sample_world))) =
      List.filter is_file_event (trace sample_world)
      ++ [OpenW (Path.to_string (Path.of_string "out/result.txt"));
          WriteF (Path.to_string (Path.of_string "out/result.txt"))
                 (output_content override_args md)].
Proof.
  split.
  - split; [reflexivity|]. split; [discriminate|].
    eexists. vm_compute. reflexivity.
  - apply (explicit_output_is_used good_env override_args "out/result.txt"
             sample_world (snd (main good_env override_args sample_world)));
      [reflexivity | discriminate | vm_compute; reflexivity].
Defined.

(** An empty [-o/--output] value counts as absent: the run is the same as
    without the option, so the output path is derived from the input. *)
Theorem empty_output_is_ignored (env : Env) (args : Args) (w : World) :
  main env (set_output (Some EmptyString) args) w =
  main env (set_output None args) w.
Proof. reflexivity. Qed.

(** ** The template *)


(** ** What a run leaves behind *)

(** The file operations of a run, in order: none, or one open of the
    output path, followed by at most one write to it. *)
Lemma run_file_events (env : Env) (args : Args) (w : World) :
  exists es,
    trace (snd (main env args w)) = trace w ++ es /\
    (List.filter is_file_event es = [] \/
     exists out md,
       determine_output args (input_path args) = Ok out /\
       snd (engine_call env args) = Ok md /\
       (List.filter is_file_event es = [OpenW (Path.to_string out)] \/
        List.filter is_file_event es =
          [OpenW (Path.to_string out);
           WriteF (Path.to_string out) (output_content args md)])).
Proof.
  destruct (exists_in w (input_path args)) eqn:Hex.
  2:{ destruct (main_missing env args w Hex) as [(e & _ & ->) | [_ ->]].
      - exists []. split; [now rewrite List.app_nil_r | now left].
      - eexists. split; [reflexivity | now left]. }
  destruct (is_pdf (input_path args)) eqn:Hpdf.
  2:{ rewrite (main_not_pdf env args w Hex Hpdf).
      eexists. split; [reflexivity | now left]. }
  destruct (determine_output_ok args Hpdf) as [out Hout].
  rewrite (main_valid_run env args w out Hex Hpdf Hout). cbv zeta.
  assert (Hquiet : forall tail,
            List.filter is_file_event
              (conversion_events (input_path args) (negb (keep_headers args))
                 (negb (include_empty_tables args)) (fst (engine_call env args))
               ++ saved_events args out ++ tail)
            = List.filter is_file_event tail).
  { intros tail. rewrite !List.filter_app. unfold conversion_events.
    cbn [List.filter is_file_event]. rewrite progress_events_no_file_event.
    unfold saved_events. now destruct (markdown_only args). }
  destruct (snd (engine_call env args)) as [md|e|code] eqn:Heng.
  - destruct (open_error env (Path.to_string out)).
    + eexists. split; [reflexivity|]. right. exists out, md.
      split; [exact Hout|]. split; [reflexivity|]. left.
      now rewrite Hquiet.
    + destruct (write_error env (Path.to_string out) (output_content args md))
        as [[e n]|]; (eexists; split; [reflexivity|]); right; exists out, md;
        (split; [exact Hout|]); (split; [reflexivity|]); right;
        now rewrite Hquiet.
  - eexists. split; [reflexivity|]. left.
    rewrite List.filter_app. unfold conversion_events.
    cbn [List.filter is_file_event].
    now rewrite progress_events_no_file_event.
  - eexists. split; [reflexivity|]. left. unfold conversion_events.
    cbn [List.filter is_file_event].
    now rewrite progress_events_no_file_event.
Qed.


Lemma existsb_file_events (k : string) (l : list event) :
  existsb (on_path k) l = existsb (on_path k) (List.filter is_file_event l).
Proof.
  induction l as [|e l IH]; [reflexivity|].
  cbn [existsb List.filter]. destruct e; cbn [is_file_event on_path existsb];
    now rewrite IH.
Qed.

(** Without a usable [-o/--output] value the output path differs from the
    input path, so the run never opens or writes the path it was given as
    input. *)
Theorem derived_output_is_not_input (env : Env) (args : Args) (w : World) :
  truthy (output args) = false ->
  is_pdf (input_path args) = true ->
  exists out es,
    determine_output args (input_path args) = Ok out /\
    Path.to_string out <> Path.to_string (input_path args) /\
    trace (snd (main env args w)) = trace w ++ es /\
    existsb (on_path (Path.to_string (input_path args))) es = false.
Proof.
  intros Hno Hpdf.
  pose proof Hpdf as Hlow. apply String.eqb_eq in Hlow.
  destruct (with_suffix_replaces (input_path args)
              (if markdown_only args then ".md" else ".yaml") Hlow)
    as (out & stem & Hws & Hin & Hto).
  { destruct (markdown_only args); auto. }
  assert (Hdet : determine_output args (input_path args) = Ok out).
  { unfold determine_output. now rewrite Hno. }
  assert (Hne : Path.to_string out <> Path.to_string (input_path args)).
  { rewrite Hin, Hto. intros E. apply (inj _) in E.
    rewrite <- E in Hlow. destruct (markdown_only args); discriminate Hlow. }
  destruct (run_file_events env args w) as (es & Htrace & Hfile).
  exists out, es. split; [exact Hdet|]. split; [exact Hne|].
  split; [exact Htrace|]. rewrite existsb_file_events.
  apply String.eqb_neq in Hne.
  destruct Hfile as [-> | (out' & md & Hout' & _ & [-> | ->])];
    [reflexivity| |];
    rewrite Hdet in Hout'; injection Hout' as <-;
    cbn [existsb on_path]; now rewrite Hne.
Qed.

Lemma derived_output_is_not_input_witness :
  (truthy (output upper_case_args) = false /\
   is_pdf (input_path upper_case_args) = true) /\
  exists out es,
    determine_output upper_case_args (input_path upper_case_args) = Ok out /\
    Path.to_string out <> Path.to_string (input_path upper_case_args) /\
    trace (snd (main good_env upper_case_args docs_world)) = trace docs_world ++ es /\
    existsb (on_path (Path.to_string (input_path upper_case_args))) es = false.
Proof.
  split; [split; vm_compute; reflexivity|].
  apply (derived_output_is_not_input good_env upper_case_args docs_world);
    vm_compute; reflexivity.
Defined.

(** ** How a run ends *)

Lemma success_conditions (env : Env) (args : Args) (w : World) :
  fst (main env args w) = Ok tt <-> succeeds env args w.
Proof.
  unfold succeeds. split.
  - intros Hrun.
    destruct (exists_in w (input_path args)) eqn:Hex;
      [|destruct (main_missing env args w Hex) as [(e & _ & Hm) | [_ Hm]];
      rewrite Hm in Hrun; discriminate].
    destruct (is_pdf (input_path args)) eqn:Hpdf;
      [|rewrite (main_not_pdf env args w Hex Hpdf) in Hrun; discriminate].
    destruct (determine_output_ok args Hpdf) as [out Hout].
    rewrite (main_valid_run env args w out Hex Hpdf Hout) in Hrun.
    cbv zeta in Hrun.
    split; [reflexivity|]. split; [reflexivity|]. exists out.
    destruct (snd (engine_call env args)) as [md|e|code]; try discriminate.
    exists md.
    destruct (open_error env (Path.to_string out)); [discriminate|].
    destruct (write_error env (Path.to_string out) (output_content args md))
      as [[e n]|]; [discriminate|].
    auto.
  - intros (Hex & Hpdf & out & md & Hout & Heng & Hopen & Hwrite).
    rewrite (main_valid_run env args w out Hex Hpdf Hout). cbv zeta.
    now rewrite Heng, Hopen, Hwrite.
Qed.

(** The program returns normally, with exit code 0, exactly when the input
    is an existing [.pdf] path, the engine returns a text, and both opening
    and writing the output file succeed. *)
Theorem returns_iff_all_steps_succeed (env : Env) (args : Args) (w : World) :
  (fst (main env args w) = Ok tt <-> succeeds env args w) /\
  (succeeds env args w -> exit_code (fst (main env args w)) = 0).
Proof.
  split; [apply success_conditions|].
  intros H. apply success_conditions in H. now rewrite H.
Qed.

(** The one exception that escapes the program is an OSError of the
    existence check, which is made outside the [try] block: the run then
    ends with that exception before printing, converting or writing
    anything. In every other run nothing escapes: the run returns normally,
    exits with code 1, or, when the engine itself exits the process, ends
    with the engine's exit code. *)
Theorem only_existence_check_escapes (env : Env) (args : Args) (w : World) :
  match stat_errors w !! Path.to_string (input_path args) with
  | Some e =>
      main env args w = (Raise e, w) /\
      exit_code (fst (main env args w)) = 1
  | None =>
      fst (main env args w) = Ok tt \/
      fst (main env args w) = SysExit 1 \/
      exists code,
        snd (engine_call env args) = SysExit code /\
        fst (main env args w) = SysExit code
  end.
Proof.
  destruct (stat_errors w !! Path.to_string (input_path args)) as [e|] eqn:Hstat.
  { rewrite (main_stat_error env args w e Hstat). split; reflexivity. }
  destruct (exists_in w (input_path args)) eqn:Hex;
    [|rewrite (main_not_found env args w Hstat Hex); auto].
  destruct (is_pdf (input_path args)) eqn:Hpdf;
    [|rewrite (main_not_pdf env args w Hex Hpdf); auto].
  destruct (determine_output_ok args Hpdf) as [out Hout].
  rewrite (main_valid_run env args w out Hex Hpdf Hout). cbv zeta.
  destruct (snd (engine_call env args)) as [md|e|code]; [|auto|eauto].
  destruct (open_error env (Path.to_string out)); [auto|].
  destruct (write_error env (Path.to_string out) (output_content args md))
    as [[e n]|]; auto.
Qed.

(** When the engine raises, nothing is written: no file is opened, every
    file is as before, and standard output shows the start message, the
    progress lines and the error. *)
Theorem engine_failure_writes_nothing (env : Env) (args : Args) (e : string)
    (w : World) :
  exists_in w (input_path args) = true ->
  is_pdf (input_path args) = true ->
  snd (engine_call env args) = Raise e ->
  fst (main env args w) = SysExit 1 /\
  files (snd (main env args w)) = files w /\
  List.filter is_file_event (trace (snd (main env args w)))
    = List.filter is_file_event (trace w) /\
  trace (snd (main env args w)) =
    trace w
    ++ conversion_events (input_path args) (negb (keep_headers args))
         (negb (include_empty_tables args)) (fst (engine_call env args))
    ++ [Stdout (error_message e +:+ Text.nl)].
Proof.
  intros Hex Hpdf Heng.
  destruct (determine_output_ok args Hpdf) as [out Hout].
  rewrite (main_valid_run env args w out Hex Hpdf Hout). cbv zeta.
  rewrite Heng. cbn [fst snd emit files trace].
  split; [reflexivity|]. split; [reflexivity|]. split; [|reflexivity].
  rewrite !List.filter_app. unfold conversion_events.
  cbn [List.filter is_file_event].
  rewrite progress_events_no_file_event. now rewrite !List.app_nil_r.
Qed.

Lemma engine_failure_writes_nothing_witness :
  (exists_in sample_world (input_path sample_args) = true /\
   is_pdf (input_path sample_args) = true /\
   snd (engine_call broken_engine_env sample_args) = Raise "not a PDF document") /\
  fst (main broken_engine_env sample_args sample_world) = SysExit 1 /\
  files (snd (main broken_engine_env sample_args sample_world)) = files sample_world /\
  List.filter is_file_event (trace (snd (main broken_engine_env sample_args sample_world)))
    = List.filter is_file_event (trace sample_world) /\
  trace (snd (main broken_engine_env sample_args sample_world)) =
    trace sample_world
    ++ conversion_events (input_path sample_args) (negb (keep_headers sample_args))
         (negb (include_empty_tables sample_args))
         (fst (engine_call broken_engine_env sample_args))
    ++ [Stdout (error_message "not a PDF document" +:+ Text.nl)].
Proof.
  split; [repeat split; vm_compute; reflexivity|].
  apply (engine_failure_writes_nothing broken_engine_env sample_args
           "not a PDF document" sample_world); vm_compute; reflexivity.
Defined.

(** Running the program again after a success, with the output file not
    being the input file and the engine and the file system answering as
    before, succeeds again and leaves the files as the first run left
    them. *)
Theorem rerun_leaves_files (env : Env) (args : Args) (out : Path.t)
    (w w' : World) :
  determine_output args (input_path args) = Ok out ->
  Path.to_string out <> Path.to_string (input_path args) ->
  main env args w = (Ok tt, w') ->
  fst (main env args w') = Ok tt /\
  files (snd (main env args w')) = files w'.
Proof.
  intros Hout Hne Hrun.
  assert (Hok : fst (main env args w) = Ok tt) by now rewrite Hrun.
  apply success_conditions in Hok
    as (Hex & Hpdf & out' & md & Hout' & Heng & Hopen & Hwrite).
  rewrite Hout in Hout'. injection Hout' as <-.
  rewrite (main_valid_run env args w out Hex Hpdf Hout) in Hrun.
  cbv zeta in Hrun. rewrite Heng, Hopen, Hwrite in Hrun.
  assert (Hw' : files w' = <[Path.to_string out := output_content args md]> (files w)
                /\ dirs w' = dirs w /\ stat_errors w' = stat_errors w).
  { injection Hrun as <-. repeat split; reflexivity. }
  destruct Hw' as (Hfiles & Hdirs & Hstat).
  assert (Hex' : exists_in w' (input_path args) = true).
  { unfold exists_in in *. rewrite Hfiles, Hdirs, Hstat.
    rewrite lookup_insert_ne by exact Hne. exact Hex. }
  rewrite (main_valid_run env args w' out Hex' Hpdf Hout). cbv zeta.
  rewrite Heng, Hopen, Hwrite. cbn [fst snd emit set_file files].
  split; [reflexivity|]. rewrite Hfiles. apply insert_insert_eq.
Qed.

Lemma rerun_leaves_files_witness :
  (determine_output upper_case_args (input_path upper_case_args)
     = Ok (Path.of_string "docs/Spec.V2.yaml") /\
   Path.to_string (Path.of_string "docs/Spec.V2.yaml")
     <> Path.to_string (input_path upper_case_args) /\
   main good_env upper_case_args docs_world
     = (Ok tt, snd (main good_env upper_case_args docs_world))) /\
  fst (main good_env upper_case_args
         (snd (main good_env upper_case_args docs_world))) = Ok tt /\
  files (snd (main good_env upper_case_args
                (snd (main good_env upper_case_args docs_world))))
    = files (snd (main good_env upper_case_args docs_world)).
Proof.
  split.
  - split; [vm_compute; reflexivity|]. split; [discriminate|].
    vm_compute. reflexivity.
  - apply (rerun_leaves_files good_env upper_case_args
             (Path.of_string "docs/Spec.V2.yaml") docs_world
             (snd (main good_env upper_case_args docs_world)));
      [vm_compute; reflexivity | discriminate | vm_compute; reflexivity].
Defined.

(** ** The converter adapter *)

(** [pdf_to_markdown] adds nothing of its own to the engine's answer: it
    returns the text, or passes on the exception or the exit, exactly as the
    engine gave it. It announces the conversion first, calls the engine once
    with the table heading [### Table], prints only progress after that, and
    touches no file. *)
Theorem pdf_to_markdown_passes_engine_result (env : Env) (pdf_path : Path.t)
    (remove_headers skip_empty_tables : bool) (w : World) :
  let r := pdf_to_markdown env pdf_path remove_headers skip_empty_tables w in
  let answer := engine env (Path.to_string pdf_path) remove_headers
                       skip_empty_tables "### Table" in
  fst r = snd answer /\
  files (snd r) = files w /\
  trace (snd r) =
    trace w
    ++ Stdout ("Converting " +:+ Path.to_string pdf_path +:+ " to Markdown..."
               +:+ Text.nl)
    :: Convert (Path.to_string pdf_path) remove_headers skip_empty_tables
               "### Table"
    :: progress_events (fst answer) /\
  List.filter is_convert (progress_events (fst answer)) = [] /\
  List.filter is_file_event (progress_events (fst answer)) = [].
Proof.
  cbv zeta. rewrite pdf_to_markdown_run.
  destruct (engine env (Path.to_string pdf_path) remove_headers
              skip_empty_tables "### Table") as [evs r].
  cbn [fst snd emit files trace].
  repeat split.
  - apply progress_events_no_convert.
  - apply progress_events_no_file_event.
Qed.

(** ** Which names pass the extension test *)

Lemma lower_ascii_dot (c : ascii) : Text.lower_ascii c = Path.dot -> c = Path.dot.
Proof.
  destruct c as [[] [] [] [] [] [] [] []]; vm_compute; intros H;
    solve [reflexivity | discriminate H].
Qed.

Lemma rfind_app (c : ascii) (s t : string) :
  Text.rfind c (s +:+ t) =
    match Text.rfind c t with
    | Some i => Some (String.length s + i)%nat
    | None => Text.rfind c s
    end.
Proof.
  induction s as [|a s IH].
  - change (EmptyString +:+ t) with t. now destruct (Text.rfind c t).
  - rewrite str_app_cons. cbn [Text.rfind String.length]. rewrite IH.
    now destruct (Text.rfind c t).
Qed.

(** A text that lowers to [.pdf] has its only dot in front. *)
Lemma rfind_dot_pdf (ext : string) :
  Text.lower ext = ".pdf" ->
  Text.rfind Path.dot ext = Some 0%nat /\ String.length ext = 4%nat.
Proof.
  intros H. split; [|now rewrite <- length_lower, H].
  destruct ext as [|c0 [|c1 [|c2 [|c3 [|c4 r]]]]]; try discriminate H.
  cbn [Text.lower] in H. injection H as H0 H1 H2 H3.
  apply lower_ascii_dot in H0. subst c0.
  assert (N : forall c x, Text.lower_ascii c = x -> x <> Path.dot ->
                          Ascii.eqb c Path.dot = false).
  { intros c x Hc Hx. apply Ascii.eqb_neq. intros ->. apply Hx.
    rewrite <- Hc. reflexivity. }
  cbn [Text.rfind].
  rewrite (N c3 _ H3), (N c2 _ H2), (N c1 _ H1) by discriminate.
  reflexivity.
Qed.

(** The extension test accepts exactly the names made of a non-empty stem
    followed by [.pdf] in any letter case; a file named just [.pdf], or a
    name with a dot after the extension, does not pass. *)
Theorem accepted_names (p : Path.t) :
  is_pdf p = true <->
  exists stem ext,
    Path.name p = stem +:+ ext /\ stem <> EmptyString /\ Text.lower ext = ".pdf".
Proof.
  unfold is_pdf. rewrite String.eqb_eq. split.
  - intros H. exists
      (Text.take (String.length (Path.name p) - String.length (Path.suffix p))
                 (Path.name p)), (Path.suffix p).
    pose proof (pdf_suffix_length p H) as Hlen.
    assert (Hsfx : Path.suffix p <> EmptyString).
    { intros E. rewrite E in Hlen. discriminate. }
    split; [now apply suffix_split|]. split; [|exact H].
    revert Hsfx Hlen. unfold Path.suffix.
    destruct (Text.rfind Path.dot (Path.name p)) as [i|]; [|congruence].
    destruct (Nat.ltb 0 i && Nat.ltb i (String.length (Path.name p) - 1))%bool
      eqn:E; [|congruence].
    apply andb_true_iff in E as [E1 E2].
    apply Nat.ltb_lt in E1, E2. intros _ _. rewrite length_drop.
    replace (String.length (Path.name p) - (String.length (Path.name p) - i))%nat
      with i by lia.
    destruct (Path.name p) as [|c n]; [cbn in E2; lia|].
    destruct i; [lia|]. discriminate.
  - intros (stem & ext & Hname & Hstem & Hlow).
    destruct (rfind_dot_pdf ext Hlow) as [Hfind Hlen].
    unfold Path.suffix. rewrite Hname, rfind_app, Hfind.
    rewrite str_length_app, Hlen, Nat.add_0_r.
    assert (0 < String.length stem)%nat by (destruct stem; [congruence | cbn; lia]).
    replace (Nat.ltb 0 (String.length stem)) with true
      by (symmetry; apply Nat.ltb_lt; lia).
    replace (Nat.ltb (String.length stem) (String.length stem + 4 - 1)) with true
      by (symmetry; apply Nat.ltb_lt; lia).
    cbn [andb]. now rewrite drop_app_length.
Qed.

(** ** The next-steps guide *)

Lemma no_heading_in_progress (l : list Progress) :
  existsb is_guide_heading (progress_events l) = false.
Proof.
  unfold progress_events. induction l as [|q l IH]; [reflexivity|].
  cbn [map concat]. rewrite existsb_app, IH.
  unfold callback_events. now destruct (Num.ge_100 (percentage q)).
Qed.

Lemma heading_in_saved (args : Args) (out : Path.t) :
  existsb is_guide_heading (saved_events args out) = negb (markdown_only args).
Proof. unfold saved_events. now destruct (markdown_only args). Qed.

(** The next-steps guide is printed exactly in the runs where the input is
    valid, the mode is the default one and the engine returned a text; it
    is printed at that point even if the write then fails, and never in
    markdown-only mode. *)
Theorem guide_printed_iff (env : Env) (args : Args) (w : World) :
  exists es,
    trace (snd (main env args w)) = trace w ++ es /\
    existsb is_guide_heading es =
      exists_in w (input_path args) && is_pdf (input_path args)
      && engine_returns env args && negb (markdown_only args).
Proof.
  unfold engine_returns.
  destruct (exists_in w (input_path args)) eqn:Hex.
  2:{ destruct (main_missing env args w Hex) as [(e & _ & ->) | [_ ->]].
      - exists []. split; [now rewrite List.app_nil_r | reflexivity].
      - eexists. split; reflexivity. }
  destruct (is_pdf (input_path args)) eqn:Hpdf.
  2:{ rewrite (main_not_pdf env args w Hex Hpdf). eexists. split; reflexivity. }
  destruct (determine_output_ok args Hpdf) as [out Hout].
  rewrite (main_valid_run env args w out Hex Hpdf Hout). cbv zeta.
  assert (Hconv : existsb is_guide_heading
            (conversion_events (input_path args) (negb (keep_headers args))
               (negb (include_empty_tables args)) (fst (engine_call env args)))
          = false).
  { unfold conversion_events. cbn [existsb]. rewrite no_heading_in_progress.
    reflexivity. }
  destruct (snd (engine_call env args)) as [md|e|code].
  - destruct (open_error env (Path.to_string out)).
    + eexists. split; [reflexivity|].
      rewrite !existsb_app, Hconv, heading_in_saved. cbn.
      now rewrite orb_false_r.
    + destruct (write_error env (Path.to_string out) (output_content args md))
        as [[e n]|]; (eexists; split; [reflexivity|]);
        rewrite !existsb_app, Hconv, heading_in_saved; cbn;
        now rewrite orb_false_r.
  - eexists. split; [reflexivity|]. rewrite existsb_app, Hconv. reflexivity.
  - eexists. split; [reflexivity|]. exact Hconv.
Qed.
